(** * Fused rotary positional embedding: the validated dispatcher

    A shallow embedding of [csrc/megatron/fused_rotary_positional_embedding.cpp]
    (namespace [fused_rope]): the two entry points [fwd] and [bwd] check the
    shape and dtype of their tensor arguments with [TORCH_CHECK] and then hand
    the call to the external kernels [fwd_cuda] and [bwd_cuda].

    The kernels are declared but not defined by the file, so a call to one of
    them is an event of the program: [fwd] and [bwd] are terms of a small
    free monad [Prog] with exceptions and kernel calls, and [run] interprets
    such a term against an arbitrary kernel, recording every invocation. *)

From Stdlib Require Import ZArith String List Lia.
From stdpp Require Import base option list strings.

Local Open Scope string_scope.
Local Open Scope Z_scope.

(** ** Tensors *)

(** [c10::ScalarType], the element type tag of a tensor. *)
Inductive ScalarType : Type :=
  | Byte | Char | Short | Int | Long
  | Half | Float | Double
  | ComplexHalf | ComplexFloat | ComplexDouble
  | Bool | QInt8 | QUInt8 | QInt32 | BFloat16.

#[global] Instance ScalarType_eq_dec : EqDecision ScalarType.
Proof. solve_decision. Defined.

(** Modelled from the spec: the type [at::Tensor] comes from the tensor
    library and is not declared in the file.  Following section 3, a tensor
    is "an opaque multi-dimensional numeric array with a rank, a
    per-dimension size vector, and a scalar element type": [sizes] is the
    size vector (its length is the rank, its entries are [int64_t]),
    [scalar_type] the dtype, and [storage] stands for the contents, which the
    dispatcher never looks at. *)
Record Tensor : Type := mkTensor {
  sizes : list Z;
  scalar_type : ScalarType;
  storage : list Z
}.

(** ** Errors, kernel calls and programs *)

(** [InvalidArgument msg] is the error of a failed [TORCH_CHECK] carrying the
    message written at the check; [IndexError d r] is what the tensor library
    raises when dimension [d] of a tensor of rank [r] is asked for and does
    not exist; [KernelError] is whatever an external kernel raises. *)
Inductive Error : Type :=
  | InvalidArgument (msg : string)
  | IndexError (d : Z) (r : Z)
  | KernelError (what : string).

(** One invocation of an external kernel, with the arguments it receives. *)
Inductive KernelCall : Type :=
  | FwdCuda (input cos sin : Tensor) (transpose_output : bool)
  | BwdCuda (output_grads cos sin : Tensor) (transpose_output : bool).

(** Programs: return a value, throw, or call a kernel and continue with the
    tensor it returns. *)
Inductive Prog (A : Type) : Type :=
  | Ret (a : A)
  | Throw (e : Error)
  | Call (k : KernelCall) (cont : Tensor -> Prog A).

Arguments Ret {A} a.
Arguments Throw {A} e.
Arguments Call {A} k cont.

Fixpoint bind {A B : Type} (m : Prog A) (f : A -> Prog B) : Prog B :=
  match m with
  | Ret a => f a
  | Throw e => Throw e
  | Call k cont => Call k (fun r => bind (cont r) f)
  end.

#[global] Instance Prog_ret : MRet Prog := fun A a => Ret a.
#[global] Instance Prog_bind : MBind Prog := fun A B f m => bind m f.

(** ** The tensor library, as far as the dispatcher uses it *)

(** Modelled from the spec: the macro [TORCH_CHECK] is not defined in the
    file.  By section 4.1 a violated precondition "fails immediately with an
    InvalidArgument error identifying which check failed"; a check that holds
    does nothing. *)
Definition TORCH_CHECK (cond : bool) (msg : string) : Prog unit :=
  if cond then Ret tt else Throw (InvalidArgument msg).

(** Modelled from the spec: [Tensor::dim] is not defined in the file; it is
    the rank of section 3, the number of entries of the size vector. *)
Definition dim (t : Tensor) : Z := Z.of_nat (length (sizes t)).

(** Modelled from the spec: [Tensor::size] is not defined in the file; it is
    the per-dimension size of section 3.  The spec is silent about a
    dimension that does not exist; the tensor library wraps a negative index
    once and raises an index error outside [-rank, rank - 1], and so does
    this definition. *)
Definition maybe_wrap_dim (d r : Z) : Prog Z :=
  if r <=? 0 then Throw (IndexError d r)
  else if (d <? - r) || (r - 1 <? d) then Throw (IndexError d r)
  else Ret (if d <? 0 then d + r else d).

Definition size (t : Tensor) (d : Z) : Prog Z :=
  i ← maybe_wrap_dim d (dim t);
  match sizes t !! Z.to_nat i with
  | Some n => Ret n
  | None => Throw (IndexError d (dim t))
  end.

(** Modelled from the spec: the kernels [fwd_cuda] and [bwd_cuda] are only
    declared in the file (section 6, "required from the external kernel
    collaborator").  A call is the event itself: the kernel receives the four
    arguments and the program continues with the tensor it returns. *)
Definition fwd_cuda (input cos sin : Tensor) (transpose_output : bool)
  : Prog Tensor :=
  Call (FwdCuda input cos sin transpose_output) Ret.

Definition bwd_cuda (output_grads cos sin : Tensor) (transpose_output : bool)
  : Prog Tensor :=
  Call (BwdCuda output_grads cos sin transpose_output) Ret.

(** ** The dispatcher *)

(** The conditions of the checks.  [a && b] of the source evaluates [b] only
    when [a] is true; the two operands of a comparison are both evaluated,
    here the left one first (the language leaves their order open, and
    either of them fails with the same error). *)
Definition and_then (a : Prog bool) (b : Prog bool) : Prog bool :=
  x ← a; if (x : bool) then b else Ret false.

Definition size_eq (t : Tensor) (d : Z) (u : Tensor) (e : Z) : Prog bool :=
  a ← size t d; b ← size u e; Ret (a =? b).

Definition size_is (t : Tensor) (d : Z) (n : Z) : Prog bool :=
  a ← size t d; Ret (a =? n).

Definition size_ge (t : Tensor) (d : Z) (u : Tensor) (e : Z) : Prog bool :=
  a ← size t d; b ← size u e; Ret (a >=? b).

Definition check (cond : Prog bool) (msg : string) : Prog unit :=
  c ← cond; TORCH_CHECK c msg.

(** [fused_rope::fwd], lines 28-50. *)
Definition fwd (input cos sin : Tensor) (transpose_output : bool)
  : Prog Tensor :=
  TORCH_CHECK (dim input =? 4) "expected 4D tensor";;
  TORCH_CHECK (dim cos =? 4) "expected 4D tensor";;
  TORCH_CHECK (dim sin =? 4) "expected 4D tensor";;
  check (size_eq input 0 cos 0)
    "expected input and cos tensor have the same sequence length";;
  check (size_eq input 0 sin 0)
    "expected input and sin tensor have the same sequence length";;
  check (and_then (size_is cos 1 1) (size_is cos 2 1))
    "expected the second and third dims of the cos tensor equal 1";;
  check (and_then (size_is sin 1 1) (size_is sin 2 1))
    "expected the second and third dims of the sin tensor equal 1";;
  check (size_eq cos 3 sin 3)
    "expected cos and sin tensor have the same last dim";;
  check (size_ge input 3 cos 3)
    ("expected the last dim of the input tensor equals or is "
     ++ "greater than the cos tensor");;
  TORCH_CHECK (bool_decide (scalar_type cos = scalar_type sin))
    "expected cos and sin tensor have the same dtype";;
  fwd_cuda input cos sin transpose_output.

(** [fused_rope::bwd], lines 52-76. *)
Definition bwd (output_grads cos sin : Tensor) (transpose_output : bool)
  : Prog Tensor :=
  TORCH_CHECK (dim output_grads =? 4) "expected 4D tensor";;
  TORCH_CHECK (dim cos =? 4) "expected 4D tensor";;
  TORCH_CHECK (dim sin =? 4) "expected 4D tensor";;
  check (size_eq output_grads 0 cos 0)
    "expected output_grads and cos tensor have the same sequence length";;
  check (size_eq output_grads 0 sin 0)
    "expected output_grads and sin tensor have the same sequence length";;
  check (and_then (size_is cos 1 1) (size_is cos 2 1))
    "expected the second and third dims of the cos tensor equal 1";;
  check (and_then (size_is sin 1 1) (size_is sin 2 1))
    "expected the second and third dims of the sin tensor equal 1";;
  check (size_eq cos 3 sin 3)
    "expected cos and sin tensor have the same last dim";;
  check (size_ge output_grads 3 cos 3)
    ("expected the last dim of the output_grads tensor equals or is "
     ++ "greater than the cos tensor");;
  TORCH_CHECK (bool_decide (scalar_type cos = scalar_type sin))
    "expected cos and sin tensor have the same dtype";;
  bwd_cuda output_grads cos sin transpose_output.

(** ** Running a program against a kernel *)

Section Run.
(** The state of everything outside the dispatcher (device memory,
    streams), and the kernels as a collaborator acting on it. *)
Context {World : Type}.
Variable kernel : KernelCall -> World -> (Error + Tensor) * World.

(** The result, the final world and the kernel invocations in order. *)
Fixpoint run {A : Type} (p : Prog A) (w : World)
  : (Error + A) * World * list KernelCall :=
  match p with
  | Ret a => (inr a, w, [])
  | Throw e => (inl e, w, [])
  | Call k cont =>
      match kernel k w with
      | (inl e, w') => (inl e, w', [k])
      | (inr r, w') =>
          let '(res, w'', tr) := run (cont r) w' in (res, w'', k :: tr)
      end
  end.
End Run.

(** What validation decided: [None] when every check passed, the error
    otherwise.  A program that reached a kernel call passed validation. *)
Definition validation {A : Type} (p : Prog A) : option Error :=
  match p with
  | Throw e => Some e
  | _ => None
  end.

(** ** The invariants of section 3, in the spec's words *)

Definition rank (t : Tensor) : nat := length (sizes t).

(** The size of dimension [n]; [0] stands for a dimension the tensor does
    not have (every use below sits next to a rank requirement). *)
Definition sizeN (n : nat) (t : Tensor) : Z := default 0 (sizes t !! n).

Definition inv_rank (x cos sin : Tensor) : Prop :=
  rank x = 4%nat /\ rank cos = 4%nat /\ rank sin = 4%nat.

Definition inv_seq_len (x cos sin : Tensor) : Prop :=
  sizeN 0 x = sizeN 0 cos /\ sizeN 0 x = sizeN 0 sin.

Definition inv_broadcast (cos sin : Tensor) : Prop :=
  (sizeN 1 cos = 1 /\ sizeN 2 cos = 1) /\ (sizeN 1 sin = 1 /\ sizeN 2 sin = 1).

Definition inv_embed_width (cos sin : Tensor) : Prop :=
  sizeN 3 cos = sizeN 3 sin.

Definition inv_width_order (x cos : Tensor) : Prop :=
  sizeN 3 x >= sizeN 3 cos.

Definition inv_dtype (cos sin : Tensor) : Prop :=
  scalar_type cos = scalar_type sin.

(** Every invariant but the width ordering. *)
Definition invariants_but_width (x cos sin : Tensor) : Prop :=
  inv_rank x cos sin /\ inv_seq_len x cos sin /\ inv_broadcast cos sin /\
  inv_embed_width cos sin /\ inv_dtype cos sin.

Definition section3_invariants (x cos sin : Tensor) : Prop :=
  invariants_but_width x cos sin /\ inv_width_order x cos.

(** ** The checks one by one *)

(** The ten [TORCH_CHECK]s of [fwd] and of [bwd], in the order they are
    written. *)
Inductive Check : Type :=
  | RankInput | RankCos | RankSin
  | SeqLenCos | SeqLenSin
  | BroadcastCos | BroadcastSin
  | LastDim | WidthOrder | DtypeEq.

#[global] Instance Check_eq_dec : EqDecision Check.
Proof. solve_decision. Defined.

Definition validation_order : list Check :=
  [RankInput; RankCos; RankSin; SeqLenCos; SeqLenSin;
   BroadcastCos; BroadcastSin; LastDim; WidthOrder; DtypeEq].

(** The relationship each check stands for, as a test on the metadata. *)
Definition holds (k : Check) (x cos sin : Tensor) : bool :=
  match k with
  | RankInput => Nat.eqb (rank x) 4
  | RankCos => Nat.eqb (rank cos) 4
  | RankSin => Nat.eqb (rank sin) 4
  | SeqLenCos => sizeN 0 x =? sizeN 0 cos
  | SeqLenSin => sizeN 0 x =? sizeN 0 sin
  | BroadcastCos => (sizeN 1 cos =? 1) && (sizeN 2 cos =? 1)
  | BroadcastSin => (sizeN 1 sin =? 1) && (sizeN 2 sin =? 1)
  | LastDim => sizeN 3 cos =? sizeN 3 sin
  | WidthOrder => sizeN 3 x >=? sizeN 3 cos
  | DtypeEq => bool_decide (scalar_type cos = scalar_type sin)
  end.

(** The message literal of each check in [fwd]. *)
Definition message (k : Check) : string :=
  match k with
  | RankInput | RankCos | RankSin => "expected 4D tensor"
  | SeqLenCos => "expected input and cos tensor have the same sequence length"
  | SeqLenSin => "expected input and sin tensor have the same sequence length"
  | BroadcastCos =>
      "expected the second and third dims of the cos tensor equal 1"
  | BroadcastSin =>
      "expected the second and third dims of the sin tensor equal 1"
  | LastDim => "expected cos and sin tensor have the same last dim"
  | WidthOrder =>
      "expected the last dim of the input tensor equals or is greater than the cos tensor"
  | DtypeEq => "expected cos and sin tensor have the same dtype"
  end.

(** The message literal of each check in [bwd]. *)
Definition message_bwd (k : Check) : string :=
  match k with
  | SeqLenCos =>
      "expected output_grads and cos tensor have the same sequence length"
  | SeqLenSin =>
      "expected output_grads and sin tensor have the same sequence length"
  | WidthOrder =>
      "expected the last dim of the output_grads tensor equals or is greater than the cos tensor"
  | _ => message k
  end.

Definition is_rank_check (k : Check) : bool :=
  match k with
  | RankInput | RankCos | RankSin => true
  | _ => false
  end.

(** The first check of the validation order that does not hold. *)
Definition first_failing (x cos sin : Tensor) : option Check :=
  List.find (fun k => negb (holds k x cos sin)) validation_order.

(** ** Concrete tensors *)

(** The tensors of the scenarios of section 8, named by their shape. *)
Definition input_8_2_4_64 : Tensor := mkTensor [8; 2; 4; 64] Half [].
Definition input_8_2_4_32 : Tensor := mkTensor [8; 2; 4; 32] Half [].
Definition input_8_2_4_16 : Tensor := mkTensor [8; 2; 4; 16] Half [].
Definition input_8_16_32_64 : Tensor := mkTensor [8; 16; 32; 64] Half [].
Definition cos_8_1_1_32 : Tensor := mkTensor [8; 1; 1; 32] Float [].
Definition sin_8_1_1_32 : Tensor := mkTensor [8; 1; 1; 32] Float [].
Definition sin_8_1_1_16 : Tensor := mkTensor [8; 1; 1; 16] Float [].
Definition sin_half_8_1_1_32 : Tensor := mkTensor [8; 1; 1; 32] Half [].
Definition sin_half_8_1_1_16 : Tensor := mkTensor [8; 1; 1; 16] Half [].

(** Tensors of rank 3. *)
Definition input_8_2_4 : Tensor := mkTensor [8; 2; 4] Half [].
Definition cos_8_1_32 : Tensor := mkTensor [8; 1; 32] Float [].

(** The tensor [x] with its dtype replaced by [dt]. *)
Definition with_scalar_type (dt : ScalarType) (x : Tensor) : Tensor :=
  mkTensor (sizes x) dt (storage x).

(** A test double for the kernels: it computes nothing, answers with its
    first argument and keeps the calls it received as its world. *)
Definition spy_kernel (k : KernelCall) (seen : list KernelCall)
  : (Error + Tensor) * list KernelCall :=
  match k with
  | FwdCuda input _ _ _ => (inr input, (seen ++ [k])%list)
  | BwdCuda output_grads _ _ _ => (inr output_grads, (seen ++ [k])%list)
  end.

(** ** The extension module *)

(** The type of the two entry points. *)
Definition EntryPoint : Type := Tensor -> Tensor -> Tensor -> bool -> Prog Tensor.

(** One [m.def (name, &function, docstring)] of the module. *)
Record Binding : Type := mkBinding {
  py_name : string;
  py_impl : EntryPoint;
  py_doc : string
}.

(** [PYBIND11_MODULE (TORCH_EXTENSION_NAME, m)], lines 80-85: the functions
    the module registers, in the order of the [m.def]s. *)
Definition pybind11_module : list Binding :=
  [ mkBinding "forward" fwd
      "Fused Rotary Positional Embedding -- Forward.";
    mkBinding "backward" bwd
      "Fused Rotary Positional Embedding -- Backward." ].

(** The list of kernel invocations of a run. *)
Definition invocations {World A : Type}
  (r : (Error + A) * World * list KernelCall) : list KernelCall := r.2.

(** ** What the kernels can rely on *)

(** The argument shapes written out: an input of four dimensions, cos and
    sin of one and the same shape [n; 1; 1; w], with [n] the sequence length
    of the input and [w] no larger than its last dimension, and one dtype
    for cos and sin. *)
Definition accepted_shapes (x cos sin : Tensor) : Prop :=
  exists n b h d w,
    sizes x = [n; b; h; d] /\ sizes cos = [n; 1; 1; w]
    /\ sizes sin = [n; 1; 1; w] /\ w <= d
    /\ scalar_type cos = scalar_type sin.

(** The checks whose message names the first argument ("input" in [fwd],
    "output_grads" in [bwd]). *)
Definition names_first_argument (k : Check) : bool :=
  match k with
  | SeqLenCos | SeqLenSin | WidthOrder => true
  | _ => false
  end.

(** ** Basic facts *)

Example fwd_scenario_1 :
  fwd input_8_2_4_64 cos_8_1_1_32 sin_8_1_1_32 true
  = Call (FwdCuda input_8_2_4_64 cos_8_1_1_32 sin_8_1_1_32 true) Ret.
Proof. reflexivity. Qed.

Example size_out_of_range :
  size (mkTensor [8; 2] Float []) 3 = Throw (IndexError 3 2).
Proof. reflexivity. Qed.

Example fwd_scenario_2 :
  fwd input_8_2_4_64 cos_8_1_1_32 sin_8_1_1_16 true
  = Throw (InvalidArgument "expected cos and sin tensor have the same last dim")
  /\ run spy_kernel (fwd input_8_2_4_64 cos_8_1_1_32 sin_8_1_1_16 true) []
     = (inl (InvalidArgument
               "expected cos and sin tensor have the same last dim"), [], []).
Proof. split; reflexivity. Qed.

Example fwd_scenario_3 :
  fwd input_8_2_4_16 cos_8_1_1_32 sin_8_1_1_32 true
  = Throw (InvalidArgument
      "expected the last dim of the input tensor equals or is greater than the cos tensor").
Proof. reflexivity. Qed.

Example fwd_scenario_4 :
  fwd input_8_2_4_64 cos_8_1_1_32 sin_half_8_1_1_32 true
  = Throw (InvalidArgument "expected cos and sin tensor have the same dtype").
Proof. reflexivity. Qed.

Example run_scenario_1 :
  run spy_kernel (fwd input_8_2_4_64 cos_8_1_1_32 sin_8_1_1_32 true) []
  = (inr input_8_2_4_64,
     [FwdCuda input_8_2_4_64 cos_8_1_1_32 sin_8_1_1_32 true],
     [FwdCuda input_8_2_4_64 cos_8_1_1_32 sin_8_1_1_32 true]).
Proof. reflexivity. Qed.

Lemma dim_eqb_4 (t : Tensor) : (dim t =? 4) = Nat.eqb (rank t) 4.
Proof.
  unfold dim, rank.
  destruct (Nat.eqb_spec (length (sizes t)) 4) as [E | E].
  - rewrite E. reflexivity.
  - apply Z.eqb_neq. lia.
Qed.

Lemma size_rank4 (t : Tensor) (d : Z) :
  rank t = 4%nat -> 0 <= d < 4 -> size t d = Ret (sizeN (Z.to_nat d) t).
Proof.
  intros R D. unfold size, maybe_wrap_dim, dim. fold (rank t). rewrite R.
  change (Z.of_nat 4) with 4.
  destruct (Z.leb_spec 4 0); [lia |].
  destruct (Z.ltb_spec d (Z.opp 4)); [lia |].
  destruct (Z.ltb_spec (4 - 1) d); [lia |].
  destruct (Z.ltb_spec d 0); [lia |].
  unfold sizeN. cbn.
  destruct (sizes t !! Z.to_nat d) eqn:E; [reflexivity |].
  apply lookup_ge_None in E. unfold rank in R. lia.
Qed.

(** Once the three ranks are known to be 4, every [size] of the body is a
    plain lookup and the checks are tests on [sizeN]. *)
Ltac expose_checks :=
  unfold check, size_eq, size_is, size_ge, and_then;
  rewrite !size_rank4 by (assumption || lia);
  change (Z.to_nat 0) with 0%nat; change (Z.to_nat 1) with 1%nat;
  change (Z.to_nat 2) with 2%nat; change (Z.to_nat 3) with 3%nat;
  cbn.

Ltac passes b := destruct b; [| reflexivity].

Ltac walk_checks x cos sin :=
  passes (sizeN 0 x =? sizeN 0 cos);
  passes (sizeN 0 x =? sizeN 0 sin);
  passes (sizeN 1 cos =? 1); passes (sizeN 2 cos =? 1);
  passes (sizeN 1 sin =? 1); passes (sizeN 2 sin =? 1);
  passes (sizeN 3 cos =? sizeN 3 sin);
  passes (sizeN 3 x >=? sizeN 3 cos);
  passes (bool_decide (scalar_type cos = scalar_type sin));
  reflexivity.

(** [fwd] is decided by the first failing check: it throws that check's
    message, or calls the kernel when no check fails. *)
Lemma fwd_first_failing (x cos sin : Tensor) (t : bool) :
  fwd x cos sin t =
  match first_failing x cos sin with
  | Some k => Throw (InvalidArgument (message k))
  | None => Call (FwdCuda x cos sin t) Ret
  end.
Proof.
  unfold fwd. rewrite !dim_eqb_4.
  unfold first_failing, validation_order. cbn [List.find holds].
  destruct (Nat.eqb_spec (rank x) 4) as [Rx | Rx]; [| reflexivity].
  destruct (Nat.eqb_spec (rank cos) 4) as [Rc | Rc]; [| reflexivity].
  destruct (Nat.eqb_spec (rank sin) 4) as [Rs | Rs]; [| reflexivity].
  expose_checks. walk_checks x cos sin.
Qed.

Lemma bwd_first_failing (g cos sin : Tensor) (t : bool) :
  bwd g cos sin t =
  match first_failing g cos sin with
  | Some k => Throw (InvalidArgument (message_bwd k))
  | None => Call (BwdCuda g cos sin t) Ret
  end.
Proof.
  unfold bwd. rewrite !dim_eqb_4.
  unfold first_failing, validation_order. cbn [List.find holds].
  destruct (Nat.eqb_spec (rank g) 4) as [Rx | Rx]; [| reflexivity].
  destruct (Nat.eqb_spec (rank cos) 4) as [Rc | Rc]; [| reflexivity].
  destruct (Nat.eqb_spec (rank sin) 4) as [Rs | Rs]; [| reflexivity].
  expose_checks. walk_checks g cos sin.
Qed.

Lemma in_validation_order (k : Check) : In k validation_order.
Proof. destruct k; cbn; tauto. Qed.

Lemma first_failing_None_iff (x cos sin : Tensor) :
  first_failing x cos sin = None <-> forall k, holds k x cos sin = true.
Proof.
  split.
  - intros H k.
    pose proof (List.find_none _ _ H k (in_validation_order k)) as Hk.
    cbn beta in Hk. now destruct (holds k x cos sin).
  - intros H. unfold first_failing, validation_order. cbn [List.find].
    rewrite !H. reflexivity.
Qed.

(** The first element of a list that satisfies a test is what [find]
    returns. *)
Lemma find_first {A : Type} (f : A -> bool) (pre post : list A) (a : A) :
  (forall b, In b pre -> f b = false) -> f a = true ->
  List.find f (pre ++ a :: post) = Some a.
Proof.
  induction pre as [| b pre IH]; intros Hpre Ha; cbn.
  - now rewrite Ha.
  - rewrite (Hpre b) by now left.
    apply IH; [| exact Ha]. intros b' Hb'. apply Hpre. now right.
Qed.

Ltac bools_to_props :=
  rewrite ?andb_true_iff, ?Nat.eqb_eq, ?Z.eqb_eq, ?Z.geb_le,
    ?bool_decide_eq_true in *.

(** The ten checks together are the invariants of section 3. *)
Lemma all_hold_iff (x cos sin : Tensor) :
  (forall k, holds k x cos sin = true) <-> section3_invariants x cos sin.
Proof.
  unfold section3_invariants, invariants_but_width, inv_rank, inv_seq_len,
    inv_broadcast, inv_embed_width, inv_width_order, inv_dtype.
  split.
  - intros H.
    pose proof (H RankInput) as H0. pose proof (H RankCos) as H1.
    pose proof (H RankSin) as H2. pose proof (H SeqLenCos) as H3.
    pose proof (H SeqLenSin) as H4. pose proof (H BroadcastCos) as H5.
    pose proof (H BroadcastSin) as H6. pose proof (H LastDim) as H7.
    pose proof (H WidthOrder) as H8. pose proof (H DtypeEq) as H9.
    clear H. cbn [holds] in *. bools_to_props.
    repeat split; try tauto; lia.
  - intros H k. destruct k; cbn [holds]; bools_to_props;
      repeat split; try tauto; lia.
Qed.

Lemma passes_iff_invariants (x cos sin : Tensor) :
  first_failing x cos sin = None <-> section3_invariants x cos sin.
Proof. rewrite first_failing_None_iff. apply all_hold_iff. Qed.

Lemma run_call_ret {World : Type}
  (kernel : KernelCall -> World -> (Error + Tensor) * World)
  (k : KernelCall) (w : World) :
  run kernel (Call k Ret) w = (kernel k w, [k]).
Proof. cbn. destruct (kernel k w) as [[e | r] w']; reflexivity. Qed.

(** * Properties of the dispatcher *)

(** C1. When the arguments satisfy every invariant of section 3, [fwd]
    changes nothing: the program is the single call of the forward kernel
    on the four arguments as received, and run against any kernel it makes
    exactly that one invocation and ends with the kernel's own result and
    world. *)
Theorem fwd_delegates_unmodified
  (input cos sin : Tensor) (transpose_output : bool) :
  section3_invariants input cos sin ->
  fwd input cos sin transpose_output
  = Call (FwdCuda input cos sin transpose_output) Ret
  /\ forall (World : Type)
       (kernel : KernelCall -> World -> (Error + Tensor) * World) (w : World),
       run kernel (fwd input cos sin transpose_output) w
       = (kernel (FwdCuda input cos sin transpose_output) w,
          [FwdCuda input cos sin transpose_output]).
Proof.
  intros Inv. apply passes_iff_invariants in Inv.
  assert (E : fwd input cos sin transpose_output
              = Call (FwdCuda input cos sin transpose_output) Ret).
  { rewrite fwd_first_failing, Inv. reflexivity. }
  split; [exact E |]. intros World kernel w. rewrite E. apply run_call_ret.
Qed.

Ltac invariants_by_computation :=
  repeat split; try (vm_compute; discriminate).

Lemma fwd_delegates_unmodified_scenario_1 :
  section3_invariants input_8_2_4_64 cos_8_1_1_32 sin_8_1_1_32
  /\ fwd input_8_2_4_64 cos_8_1_1_32 sin_8_1_1_32 true
     = Call (FwdCuda input_8_2_4_64 cos_8_1_1_32 sin_8_1_1_32 true) Ret.
Proof.
  split; [invariants_by_computation |].
  apply (fwd_delegates_unmodified input_8_2_4_64 cos_8_1_1_32 sin_8_1_1_32 true).
  invariants_by_computation.
Defined.

(** What [fwd] does when validation fails: the error is thrown by the
    dispatcher, whatever the kernel is it is not invoked and the world is
    left as it was. *)
Lemma run_throw {World : Type}
  (kernel : KernelCall -> World -> (Error + Tensor) * World)
  (e : Error) (w : World) :
  run kernel (Throw e : Prog Tensor) w = (inl e, w, []).
Proof. reflexivity. Qed.

Lemma fwd_rejects_iff (x cos sin : Tensor) (t : bool) :
  (exists msg, fwd x cos sin t = Throw (InvalidArgument msg))
  <-> ~ section3_invariants x cos sin.
Proof.
  rewrite <- passes_iff_invariants, fwd_first_failing.
  destruct (first_failing x cos sin) as [k |].
  - split; [discriminate | eauto].
  - split; [intros [msg H]; discriminate | congruence].
Qed.

(** C2. [fwd] raises InvalidArgument if and only if some invariant of
    section 3 is violated; in that case, run against any kernel, the call
    ends with that error, the kernel has not been invoked (the list of
    invocations is empty) and the world is untouched. *)
Theorem fwd_invalid_argument_iff_violation
  (input cos sin : Tensor) (transpose_output : bool) :
  ((exists msg, fwd input cos sin transpose_output
                = Throw (InvalidArgument msg))
   <-> ~ section3_invariants input cos sin)
  /\ (~ section3_invariants input cos sin ->
      forall (World : Type)
        (kernel : KernelCall -> World -> (Error + Tensor) * World) (w : World),
      exists msg,
        run kernel (fwd input cos sin transpose_output) w
        = (inl (InvalidArgument msg), w, [])).
Proof.
  split; [apply fwd_rejects_iff |].
  intros V World kernel w.
  apply (fwd_rejects_iff input cos sin transpose_output) in V as [msg E].
  exists msg. rewrite E. apply run_throw.
Qed.

(** Scenario 2 of section 8: cos and sin differ in their last dimension. *)
Lemma fwd_invalid_argument_iff_violation_scenario_2 :
  ~ section3_invariants input_8_2_4_64 cos_8_1_1_32 sin_8_1_1_16
  /\ exists msg,
       run spy_kernel (fwd input_8_2_4_64 cos_8_1_1_32 sin_8_1_1_16 false) []
       = (inl (InvalidArgument msg), [], []).
Proof.
  assert (V : ~ section3_invariants input_8_2_4_64 cos_8_1_1_32 sin_8_1_1_16).
  { intros [(_ & _ & _ & W & _) _]. vm_compute in W. discriminate. }
  split; [exact V |].
  exact (proj2 (fwd_invalid_argument_iff_violation
                  input_8_2_4_64 cos_8_1_1_32 sin_8_1_1_16 false)
           V _ spy_kernel []).
Defined.

(** With every other invariant in place, the width check alone decides. *)
Lemma first_failing_width (x cos sin : Tensor) :
  invariants_but_width x cos sin ->
  first_failing x cos sin
  = if sizeN 3 x >=? sizeN 3 cos then None else Some WidthOrder.
Proof.
  intros Inv. destruct (sizeN 3 x >=? sizeN 3 cos) eqn:W.
  - apply passes_iff_invariants. split; [exact Inv |].
    unfold inv_width_order. apply Z.geb_le in W. lia.
  - destruct Inv as ((Rx & Rc & Rs) & (S0 & S1) & ((C1 & C2) & (N1 & N2))
                     & L & D).
    unfold first_failing, validation_order. cbn [List.find holds].
    rewrite Rx, Rc, Rs, <- S0, <- S1, C1, C2, N1, N2, <- L, W, !Z.eqb_refl.
    unfold inv_dtype in D. rewrite D, bool_decide_eq_true_2 by reflexivity.
    reflexivity.
Qed.

(** C3. When all the other invariants hold, [fwd] fails with
    InvalidArgument exactly when size3(Input) < size3(Cos), then with the
    message of the width check; the inequality is strict, and at
    size3(Input) = size3(Cos) the check passes and the kernel is called. *)
Theorem fwd_width_check_is_strict
  (input cos sin : Tensor) (transpose_output : bool) :
  invariants_but_width input cos sin ->
  ((exists msg, fwd input cos sin transpose_output
                = Throw (InvalidArgument msg))
   <-> sizeN 3 input < sizeN 3 cos)
  /\ (sizeN 3 input < sizeN 3 cos ->
      fwd input cos sin transpose_output
      = Throw (InvalidArgument
          "expected the last dim of the input tensor equals or is greater than the cos tensor"))
  /\ (sizeN 3 input = sizeN 3 cos ->
      fwd input cos sin transpose_output
      = Call (FwdCuda input cos sin transpose_output) Ret).
Proof.
  intros Inv. rewrite fwd_first_failing, (first_failing_width _ _ _ Inv).
  destruct (Z.geb_spec (sizeN 3 input) (sizeN 3 cos)) as [W | W].
  - split; [| split].
    + split; [intros [msg H]; discriminate | lia].
    + lia.
    + reflexivity.
  - split; [| split].
    + split; [intros _; assumption | eauto].
    + reflexivity.
    + lia.
Qed.

(** Hidden width equal to the embedding width: the call goes through. *)
Lemma fwd_width_check_is_strict_equal_widths :
  invariants_but_width input_8_2_4_32 cos_8_1_1_32 sin_8_1_1_32
  /\ sizeN 3 input_8_2_4_32 = sizeN 3 cos_8_1_1_32
  /\ fwd input_8_2_4_32 cos_8_1_1_32 sin_8_1_1_32 false
     = Call (FwdCuda input_8_2_4_32 cos_8_1_1_32 sin_8_1_1_32 false) Ret.
Proof.
  assert (I : invariants_but_width input_8_2_4_32 cos_8_1_1_32 sin_8_1_1_32)
    by (repeat split).
  split; [exact I |]. split; [reflexivity |].
  apply (fwd_width_check_is_strict
           input_8_2_4_32 cos_8_1_1_32 sin_8_1_1_32 false I).
  reflexivity.
Defined.

Lemma validation_fwd (x cos sin : Tensor) (t : bool) :
  validation (fwd x cos sin t)
  = (fun k => InvalidArgument (message k)) <$> first_failing x cos sin.
Proof.
  rewrite fwd_first_failing. now destruct (first_failing x cos sin).
Qed.

Lemma validation_bwd (g cos sin : Tensor) (t : bool) :
  validation (bwd g cos sin t)
  = (fun k => InvalidArgument (message_bwd k)) <$> first_failing g cos sin.
Proof.
  rewrite bwd_first_failing. now destruct (first_failing g cos sin).
Qed.

(** C4. [bwd] is [fwd] with output_grads in the place of input: its
    validation passes exactly when that of [fwd] on the same tuple does;
    when [fwd] rejects, it is with InvalidArgument at some check, and [bwd]
    rejects with InvalidArgument at the same check (the wording names
    output_grads where [fwd] names input); when validation passes, [bwd] is
    the single call of the backward kernel on the four arguments as
    received and ends with the kernel's own result. *)
Theorem bwd_mirrors_fwd
  (output_grads cos sin : Tensor) (transpose_output : bool) :
  (validation (bwd output_grads cos sin transpose_output) = None
   <-> validation (fwd output_grads cos sin transpose_output) = None)
  /\ (forall e,
        validation (fwd output_grads cos sin transpose_output) = Some e ->
        exists k,
          first_failing output_grads cos sin = Some k
          /\ e = InvalidArgument (message k)
          /\ validation (bwd output_grads cos sin transpose_output)
             = Some (InvalidArgument (message_bwd k)))
  /\ (validation (fwd output_grads cos sin transpose_output) = None ->
      fwd output_grads cos sin transpose_output
      = Call (FwdCuda output_grads cos sin transpose_output) Ret
      /\ bwd output_grads cos sin transpose_output
         = Call (BwdCuda output_grads cos sin transpose_output) Ret
      /\ forall (World : Type)
           (kernel : KernelCall -> World -> (Error + Tensor) * World)
           (w : World),
           run kernel (bwd output_grads cos sin transpose_output) w
           = (kernel (BwdCuda output_grads cos sin transpose_output) w,
              [BwdCuda output_grads cos sin transpose_output])).
Proof.
  rewrite validation_fwd, validation_bwd, fwd_first_failing, bwd_first_failing.
  destruct (first_failing output_grads cos sin) as [k |] eqn:F; cbn.
  - split; [split; discriminate |]. split; [| discriminate].
    intros e [= <-]. exists k. auto.
  - split; [tauto |]. split; [discriminate |].
    intros _. repeat split. intros World kernel w. apply run_call_ret.
Qed.

(** The messages of two different checks coincide only among the three
    rank checks. *)
Lemma message_eq_iff (k1 k2 : Check) :
  k1 <> k2 ->
  (message k1 = message k2
   <-> is_rank_check k1 = true /\ is_rank_check k2 = true).
Proof.
  intros N. destruct k1, k2; cbn; split; intros H;
    first [congruence | discriminate | tauto | (split; reflexivity)
          | (destruct H; discriminate)].
Qed.

(** C5, as the code has it.  Two calls of [fwd] that fail at different
    checks report different messages, unless both fail at a rank check: the
    rank checks on input, cos and sin share the message
    "expected 4D tensor". *)
Theorem fwd_messages_distinct_unless_rank
  (x cos sin : Tensor) (t : bool) (x' cos' sin' : Tensor) (t' : bool)
  (k k' : Check) :
  first_failing x cos sin = Some k ->
  first_failing x' cos' sin' = Some k' ->
  k <> k' ->
  fwd x cos sin t = Throw (InvalidArgument (message k))
  /\ fwd x' cos' sin' t' = Throw (InvalidArgument (message k'))
  /\ (fwd x cos sin t = fwd x' cos' sin' t'
      <-> is_rank_check k = true /\ is_rank_check k' = true).
Proof.
  intros F F' N. rewrite !fwd_first_failing, F, F'.
  split; [reflexivity |]. split; [reflexivity |].
  rewrite <- (message_eq_iff k k' N). split; congruence.
Qed.

(** Scenarios 2 and 4 of section 8 fail at different checks and are told
    apart by their messages. *)
Lemma fwd_messages_distinct_scenarios_2_4 :
  fwd input_8_2_4_64 cos_8_1_1_32 sin_8_1_1_16 false
  = Throw (InvalidArgument (message LastDim))
  /\ fwd input_8_2_4_64 cos_8_1_1_32 sin_half_8_1_1_32 false
     = Throw (InvalidArgument (message DtypeEq))
  /\ (fwd input_8_2_4_64 cos_8_1_1_32 sin_8_1_1_16 false
      = fwd input_8_2_4_64 cos_8_1_1_32 sin_half_8_1_1_32 false
      <-> is_rank_check LastDim = true /\ is_rank_check DtypeEq = true).
Proof.
  apply (fwd_messages_distinct_unless_rank
           input_8_2_4_64 cos_8_1_1_32 sin_8_1_1_16 false
           input_8_2_4_64 cos_8_1_1_32 sin_half_8_1_1_32 false
           LastDim DtypeEq).
  - reflexivity.
  - reflexivity.
  - discriminate.
Defined.

(** A call whose only violation is the rank of input and a call whose only
    violation is the rank of cos fail at different checks and report the
    same message. *)
Lemma fwd_rank_messages_coincide :
  first_failing input_8_2_4 cos_8_1_1_32 sin_8_1_1_32 = Some RankInput
  /\ first_failing input_8_2_4_64 cos_8_1_32 sin_8_1_1_32 = Some RankCos
  /\ fwd input_8_2_4 cos_8_1_1_32 sin_8_1_1_32 false
     = Throw (InvalidArgument "expected 4D tensor")
  /\ fwd input_8_2_4_64 cos_8_1_32 sin_8_1_1_32 false
     = Throw (InvalidArgument "expected 4D tensor").
Proof. repeat split. Qed.

(** The checks read the size vector of the three tensors and the dtype of
    cos and sin, and nothing else. *)
Lemma holds_metadata (k : Check) (x cos sin x' cos' sin' : Tensor) :
  sizes x = sizes x' -> sizes cos = sizes cos' -> sizes sin = sizes sin' ->
  scalar_type cos = scalar_type cos' -> scalar_type sin = scalar_type sin' ->
  holds k x cos sin = holds k x' cos' sin'.
Proof.
  intros Sx Sc Ss Dc Ds.
  destruct k; unfold holds, rank, sizeN; rewrite ?Sx, ?Sc, ?Ss, ?Dc, ?Ds;
    reflexivity.
Qed.

Lemma find_pointwise {A : Type} (f g : A -> bool) (l : list A) :
  (forall a, f a = g a) -> List.find f l = List.find g l.
Proof.
  intros E. induction l as [| a l IH]; cbn; [reflexivity |].
  rewrite E, IH. reflexivity.
Qed.

Lemma first_failing_agree (x cos sin x' cos' sin' : Tensor) :
  (forall k, holds k x cos sin = holds k x' cos' sin') ->
  first_failing x cos sin = first_failing x' cos' sin'.
Proof.
  intros E. unfold first_failing. apply find_pointwise.
  intros k. now rewrite E.
Qed.

(** C6. The outcome of validation in [fwd] is a function of the shape and
    dtype metadata alone: two calls whose tensors agree in size vector
    (hence rank) and dtype, whatever their contents and flags, have the
    same outcome.  The outcome is always defined, and is either a pass or
    an InvalidArgument; and validation has no effect of its own, the
    program being the thrown error or else the bare kernel call. *)
Theorem fwd_validation_reads_metadata_only
  (x cos sin : Tensor) (t : bool) (x' cos' sin' : Tensor) (t' : bool) :
  sizes x = sizes x' -> scalar_type x = scalar_type x' ->
  sizes cos = sizes cos' -> scalar_type cos = scalar_type cos' ->
  sizes sin = sizes sin' -> scalar_type sin = scalar_type sin' ->
  validation (fwd x cos sin t) = validation (fwd x' cos' sin' t')
  /\ (validation (fwd x cos sin t) = None
      \/ exists msg, validation (fwd x cos sin t) = Some (InvalidArgument msg))
  /\ fwd x cos sin t
     = match validation (fwd x cos sin t) with
       | Some e => Throw e
       | None => Call (FwdCuda x cos sin t) Ret
       end.
Proof.
  intros Sx _ Sc Dc Ss Ds.
  rewrite !validation_fwd, fwd_first_failing.
  rewrite (first_failing_agree x cos sin x' cos' sin')
    by (intros k; now apply holds_metadata).
  destruct (first_failing x' cos' sin') as [k |]; cbn; eauto.
Qed.

(** Same shapes and dtypes as scenario 1, other contents and flag. *)
Lemma fwd_validation_reads_metadata_only_contents :
  validation (fwd input_8_2_4_64 cos_8_1_1_32 sin_8_1_1_32 true)
  = validation
      (fwd (mkTensor [8; 2; 4; 64] Half [1; 2; 3])
           (mkTensor [8; 1; 1; 32] Float [4; 5])
           (mkTensor [8; 1; 1; 32] Float [6]) false).
Proof.
  apply (fwd_validation_reads_metadata_only
           input_8_2_4_64 cos_8_1_1_32 sin_8_1_1_32 true
           (mkTensor [8; 2; 4; 64] Half [1; 2; 3])
           (mkTensor [8; 1; 1; 32] Float [4; 5])
           (mkTensor [8; 1; 1; 32] Float [6]) false);
    reflexivity.
Defined.

(** C7. With several invariants violated, [fwd] reports the first failing
    check of the validation order (rank of input, of cos, of sin; sequence
    length against cos, then sin; broadcast dims of cos, then sin; last dim
    of cos and sin; width ordering; dtype of cos and sin): if a check fails
    and all the checks before it hold, its message is the one thrown,
    whatever the checks after it say.  The order does not decide whether a
    call passes: validation passes exactly when all ten checks hold, taken
    in any order. *)
Theorem fwd_reports_first_failing_check
  (x cos sin : Tensor) (t : bool) :
  (forall pre k post,
      validation_order = (pre ++ k :: post)%list ->
      (forall j, In j pre -> holds j x cos sin = true) ->
      holds k x cos sin = false ->
      fwd x cos sin t = Throw (InvalidArgument (message k)))
  /\ (forall order : list Check,
        Permutation order validation_order ->
        (forallb (fun k => holds k x cos sin) order = true
         <-> fwd x cos sin t = Call (FwdCuda x cos sin t) Ret)).
Proof.
  split.
  - intros pre k post O Hpre Hk.
    rewrite fwd_first_failing. unfold first_failing. rewrite O.
    rewrite (find_first _ pre post k); [reflexivity | | now rewrite Hk].
    intros j Hj. now rewrite (Hpre j Hj).
  - intros order P. rewrite forallb_forall, fwd_first_failing.
    split.
    + intros H.
      assert (F : first_failing x cos sin = None).
      { apply first_failing_None_iff. intros k. apply H.
        apply list_elem_of_In. rewrite P. apply list_elem_of_In.
        apply in_validation_order. }
      now rewrite F.
    + intros H k _.
      destruct (first_failing x cos sin) eqn:F; [discriminate |].
      now apply first_failing_None_iff.
Qed.

(** Input of rank 3, cos and sin of different last dimension and dtype:
    three violations, the rank check on input is the one reported. *)
Lemma fwd_reports_first_failing_check_rank_first :
  holds RankInput input_8_2_4 cos_8_1_1_32 sin_half_8_1_1_16 = false
  /\ holds LastDim input_8_2_4 cos_8_1_1_32 sin_half_8_1_1_16 = false
  /\ holds DtypeEq input_8_2_4 cos_8_1_1_32 sin_half_8_1_1_16 = false
  /\ fwd input_8_2_4 cos_8_1_1_32 sin_half_8_1_1_16 true
     = Throw (InvalidArgument "expected 4D tensor").
Proof.
  split; [reflexivity |]. split; [reflexivity |]. split; [reflexivity |].
  apply (proj1 (fwd_reports_first_failing_check
                  input_8_2_4 cos_8_1_1_32 sin_half_8_1_1_16 true)
           [] RankInput
           [RankCos; RankSin; SeqLenCos; SeqLenSin; BroadcastCos;
            BroadcastSin; LastDim; WidthOrder; DtypeEq]).
  - reflexivity.
  - intros j [].
  - reflexivity.
Defined.

Lemma first_failing_rank (x cos sin : Tensor) :
  ~ inv_rank x cos sin ->
  exists k, first_failing x cos sin = Some k /\ is_rank_check k = true.
Proof.
  unfold inv_rank, first_failing, validation_order. intros V.
  cbn [List.find holds].
  destruct (Nat.eqb_spec (rank x) 4); [| exists RankInput; now split].
  destruct (Nat.eqb_spec (rank cos) 4); [| exists RankCos; now split].
  destruct (Nat.eqb_spec (rank sin) 4); [| exists RankSin; now split].
  tauto.
Qed.

(** C8. Neither [fwd] nor [bwd] ever asks a tensor for a dimension it does
    not have: no call ends in the index error of [size].  When one of the
    three ranks is not 4 the call stops at a rank check, with
    InvalidArgument, before any [size]; when all three are 4, every
    [size (0)] to [size (3)] on the three tensors is in range and returns a
    size. *)
Theorem dimension_access_in_range
  (x cos sin : Tensor) (t : bool) :
  (forall d r, fwd x cos sin t <> Throw (IndexError d r))
  /\ (forall d r, bwd x cos sin t <> Throw (IndexError d r))
  /\ (~ inv_rank x cos sin ->
      fwd x cos sin t = Throw (InvalidArgument "expected 4D tensor")
      /\ bwd x cos sin t = Throw (InvalidArgument "expected 4D tensor"))
  /\ (inv_rank x cos sin ->
      forall u, In u [x; cos; sin] ->
      forall d, 0 <= d < 4 -> exists n, size u d = Ret n).
Proof.
  rewrite fwd_first_failing, bwd_first_failing.
  split; [| split; [| split]].
  - intros d r. now destruct (first_failing x cos sin).
  - intros d r. now destruct (first_failing x cos sin).
  - intros V. destruct (first_failing_rank x cos sin V) as (k & -> & K).
    destruct k; try discriminate; split; reflexivity.
  - intros (Rx & Rc & Rs) u Hu d Hd.
    exists (sizeN (Z.to_nat d) u). apply size_rank4; [| exact Hd].
    cbn in Hu. destruct Hu as [<- | [<- | [<- | []]]]; assumption.
Qed.

(** Without the rank checks the first [size] would fail: on a tensor of
    rank 0 the comparison of sequence lengths ends in an index error. *)
Example size_eq_rank_0 :
  check (size_eq (mkTensor [] Float []) 0 cos_8_1_1_32 0)
    "expected input and cos tensor have the same sequence length"
  = Throw (IndexError 0 0).
Proof. reflexivity. Qed.

Lemma with_scalar_type_holds (k : Check) (dt : ScalarType)
  (x cos sin : Tensor) :
  holds k (with_scalar_type dt x) cos sin = holds k x cos sin.
Proof. apply holds_metadata; reflexivity. Qed.

(** C9. The dtype of input is not looked at: replacing it by any other
    dtype leaves the outcome of validation as it was, and a tuple that
    satisfies the invariants of section 3 reaches the kernel also when
    dtype(Input) differs from dtype(Cos).  The one dtype relation a passing
    call is known to satisfy is dtype(Cos) = dtype(Sin). *)
Theorem fwd_input_dtype_unconstrained
  (input cos sin : Tensor) (transpose_output : bool) :
  (forall dt,
      validation (fwd (with_scalar_type dt input) cos sin transpose_output)
      = validation (fwd input cos sin transpose_output))
  /\ (section3_invariants input cos sin ->
      scalar_type input <> scalar_type cos ->
      fwd input cos sin transpose_output
      = Call (FwdCuda input cos sin transpose_output) Ret
      /\ forall (World : Type)
           (kernel : KernelCall -> World -> (Error + Tensor) * World)
           (w : World),
           run kernel (fwd input cos sin transpose_output) w
           = (kernel (FwdCuda input cos sin transpose_output) w,
              [FwdCuda input cos sin transpose_output]))
  /\ (validation (fwd input cos sin transpose_output) = None ->
      scalar_type cos = scalar_type sin).
Proof.
  split; [| split].
  - intros dt. rewrite !validation_fwd.
    rewrite (first_failing_agree (with_scalar_type dt input) cos sin
               input cos sin); [reflexivity |].
    intros k. apply with_scalar_type_holds.
  - intros Inv _. apply passes_iff_invariants in Inv.
    assert (E : fwd input cos sin transpose_output
                = Call (FwdCuda input cos sin transpose_output) Ret).
    { rewrite fwd_first_failing, Inv. reflexivity. }
    split; [exact E |]. intros World kernel w. rewrite E. apply run_call_ret.
  - rewrite validation_fwd.
    destruct (first_failing input cos sin) eqn:F; [discriminate |].
    intros _. apply passes_iff_invariants in F. apply F.
Qed.

(** Scenario 1 with a half-precision input and single-precision tables. *)
Lemma fwd_input_dtype_unconstrained_half_float :
  scalar_type input_8_2_4_64 <> scalar_type cos_8_1_1_32
  /\ fwd input_8_2_4_64 cos_8_1_1_32 sin_8_1_1_32 false
     = Call (FwdCuda input_8_2_4_64 cos_8_1_1_32 sin_8_1_1_32 false) Ret.
Proof.
  assert (D : scalar_type input_8_2_4_64 <> scalar_type cos_8_1_1_32)
    by discriminate.
  split; [exact D |].
  apply (proj1 (proj2 (fwd_input_dtype_unconstrained
                         input_8_2_4_64 cos_8_1_1_32 sin_8_1_1_32 false)));
    [invariants_by_computation | exact D].
Defined.

Lemma holds_batch_heads (k : Check) (x x' cos sin : Tensor) :
  length (sizes x) = length (sizes x') ->
  (forall i, i <> 1%nat -> i <> 2%nat -> sizes x !! i = sizes x' !! i) ->
  holds k x cos sin = holds k x' cos sin.
Proof.
  intros L E.
  destruct k; unfold holds, rank, sizeN;
    rewrite ?L, ?(E 0%nat), ?(E 3%nat) by discriminate; reflexivity.
Qed.

(** C10. The outcome of validation in [fwd] depends neither on
    transpose_output nor on the sizes of dimensions 1 and 2 of input: two
    calls whose inputs have the same rank and agree in every other
    dimension, with the same cos and sin and any two flags, have the same
    outcome.  The flag is used in the kernel call only: the program is the
    error of validation, or the kernel call on the arguments as received. *)
Theorem fwd_validation_ignores_flag_batch_heads
  (x x' cos sin : Tensor) (t t' : bool) :
  length (sizes x) = length (sizes x') ->
  (forall i, i <> 1%nat -> i <> 2%nat -> sizes x !! i = sizes x' !! i) ->
  validation (fwd x cos sin t) = validation (fwd x' cos sin t')
  /\ fwd x cos sin t
     = match validation (fwd x cos sin t') with
       | Some e => Throw e
       | None => Call (FwdCuda x cos sin t) Ret
       end.
Proof.
  intros L E. rewrite !validation_fwd, fwd_first_failing.
  rewrite (first_failing_agree x cos sin x' cos sin)
    by (intros k; now apply holds_batch_heads).
  split; [reflexivity |].
  now destruct (first_failing x' cos sin).
Qed.

(** Scenario 1 against a call with batch 16, 32 heads and the other flag. *)
Lemma fwd_validation_ignores_flag_batch_heads_scenario_1 :
  validation (fwd input_8_2_4_64 cos_8_1_1_32 sin_8_1_1_32 true)
  = validation (fwd input_8_16_32_64 cos_8_1_1_32 sin_8_1_1_32 false).
Proof.
  apply (fwd_validation_ignores_flag_batch_heads
           input_8_2_4_64 input_8_16_32_64 cos_8_1_1_32 sin_8_1_1_32
           true false).
  - reflexivity.
  - intros [| [| [| [| i]]]] N1 N2; first [reflexivity | contradiction].
Defined.

(** * Further properties of the code *)

(** ** The backward entry point *)

Lemma bwd_rejects_iff (g cos sin : Tensor) (t : bool) :
  (exists msg, bwd g cos sin t = Throw (InvalidArgument msg))
  <-> ~ section3_invariants g cos sin.
Proof.
  rewrite <- passes_iff_invariants, bwd_first_failing.
  destruct (first_failing g cos sin) as [k |].
  - split; [discriminate | eauto].
  - split; [intros [msg H]; discriminate | congruence].
Qed.

(** X1. [bwd] raises InvalidArgument if and only if output_grads, cos and
    sin violate an invariant of section 3; in that case, run against any
    kernel, the call ends with that error without any kernel invocation
    and with the world untouched. *)
Theorem bwd_invalid_argument_iff_violation
  (output_grads cos sin : Tensor) (transpose_output : bool) :
  ((exists msg, bwd output_grads cos sin transpose_output
                = Throw (InvalidArgument msg))
   <-> ~ section3_invariants output_grads cos sin)
  /\ (~ section3_invariants output_grads cos sin ->
      forall (World : Type)
        (kernel : KernelCall -> World -> (Error + Tensor) * World) (w : World),
      exists msg,
        run kernel (bwd output_grads cos sin transpose_output) w
        = (inl (InvalidArgument msg), w, [])).
Proof.
  split; [apply bwd_rejects_iff |].
  intros V World kernel w.
  apply (bwd_rejects_iff output_grads cos sin transpose_output) in V
    as [msg E].
  exists msg. rewrite E. apply run_throw.
Qed.

(** X2. With every other invariant in place, [bwd] fails exactly when
    size3(output_grads) < size3(cos), with the message of its own width
    check (which names output_grads); at equal widths it calls the backward
    kernel. *)
Theorem bwd_width_check_is_strict
  (output_grads cos sin : Tensor) (transpose_output : bool) :
  invariants_but_width output_grads cos sin ->
  ((exists msg, bwd output_grads cos sin transpose_output
                = Throw (InvalidArgument msg))
   <-> sizeN 3 output_grads < sizeN 3 cos)
  /\ (sizeN 3 output_grads < sizeN 3 cos ->
      bwd output_grads cos sin transpose_output
      = Throw (InvalidArgument
          "expected the last dim of the output_grads tensor equals or is greater than the cos tensor"))
  /\ (sizeN 3 output_grads = sizeN 3 cos ->
      bwd output_grads cos sin transpose_output
      = Call (BwdCuda output_grads cos sin transpose_output) Ret).
Proof.
  intros Inv. rewrite bwd_first_failing, (first_failing_width _ _ _ Inv).
  destruct (Z.geb_spec (sizeN 3 output_grads) (sizeN 3 cos)) as [W | W].
  - split; [| split].
    + split; [intros [msg H]; discriminate | lia].
    + lia.
    + reflexivity.
  - split; [| split].
    + split; [intros _; assumption | eauto].
    + reflexivity.
    + lia.
Qed.

(** Gradients narrower than the embedding: the width check fires. *)
Lemma bwd_width_check_is_strict_narrow_grads :
  invariants_but_width input_8_2_4_16 cos_8_1_1_32 sin_8_1_1_32
  /\ sizeN 3 input_8_2_4_16 < sizeN 3 cos_8_1_1_32
  /\ bwd input_8_2_4_16 cos_8_1_1_32 sin_8_1_1_32 true
     = Throw (InvalidArgument
         "expected the last dim of the output_grads tensor equals or is greater than the cos tensor").
Proof.
  assert (I : invariants_but_width input_8_2_4_16 cos_8_1_1_32 sin_8_1_1_32)
    by (repeat split).
  assert (W : sizeN 3 input_8_2_4_16 < sizeN 3 cos_8_1_1_32) by reflexivity.
  split; [exact I |]. split; [exact W |].
  exact (proj1 (proj2 (bwd_width_check_is_strict
                         input_8_2_4_16 cos_8_1_1_32 sin_8_1_1_32 true I)) W).
Defined.

(** X3. With several invariants violated, [bwd] reports the first failing
    check of the same validation order as [fwd], with its own message; and
    it reaches the backward kernel exactly when all ten checks hold, taken
    in any order. *)
Theorem bwd_reports_first_failing_check
  (g cos sin : Tensor) (t : bool) :
  (forall pre k post,
      validation_order = (pre ++ k :: post)%list ->
      (forall j, In j pre -> holds j g cos sin = true) ->
      holds k g cos sin = false ->
      bwd g cos sin t = Throw (InvalidArgument (message_bwd k)))
  /\ (forall order : list Check,
        Permutation order validation_order ->
        (forallb (fun k => holds k g cos sin) order = true
         <-> bwd g cos sin t = Call (BwdCuda g cos sin t) Ret)).
Proof.
  split.
  - intros pre k post O Hpre Hk.
    rewrite bwd_first_failing. unfold first_failing. rewrite O.
    rewrite (find_first _ pre post k); [reflexivity | | now rewrite Hk].
    intros j Hj. now rewrite (Hpre j Hj).
  - intros order P. rewrite forallb_forall, bwd_first_failing.
    split.
    + intros H.
      assert (F : first_failing g cos sin = None).
      { apply first_failing_None_iff. intros k. apply H.
        apply list_elem_of_In. rewrite P. apply list_elem_of_In.
        apply in_validation_order. }
      now rewrite F.
    + intros H k _.
      destruct (first_failing g cos sin) eqn:F; [discriminate |].
      now apply first_failing_None_iff.
Qed.

Lemma message_bwd_eq_iff (k1 k2 : Check) :
  k1 <> k2 ->
  (message_bwd k1 = message_bwd k2
   <-> is_rank_check k1 = true /\ is_rank_check k2 = true).
Proof.
  intros N. destruct k1, k2; cbn; split; intros H;
    first [congruence | discriminate | tauto | (split; reflexivity)
          | (destruct H; discriminate)].
Qed.

(** X4. Two calls of [bwd] that fail at different checks report different
    messages, unless both fail at a rank check: as in [fwd], the rank
    checks on output_grads, cos and sin share one message. *)
Theorem bwd_messages_distinct_unless_rank
  (g cos sin : Tensor) (t : bool) (g' cos' sin' : Tensor) (t' : bool)
  (k k' : Check) :
  first_failing g cos sin = Some k ->
  first_failing g' cos' sin' = Some k' ->
  k <> k' ->
  bwd g cos sin t = Throw (InvalidArgument (message_bwd k))
  /\ bwd g' cos' sin' t' = Throw (InvalidArgument (message_bwd k'))
  /\ (bwd g cos sin t = bwd g' cos' sin' t'
      <-> is_rank_check k = true /\ is_rank_check k' = true).
Proof.
  intros F F' N. rewrite !bwd_first_failing, F, F'.
  split; [reflexivity |]. split; [reflexivity |].
  rewrite <- (message_bwd_eq_iff k k' N). split; congruence.
Qed.

(** Gradients of rank 3 against tables of rank 3: two rank checks, one
    message. *)
Lemma bwd_messages_distinct_unless_rank_two_ranks :
  bwd input_8_2_4 cos_8_1_1_32 sin_8_1_1_32 false
  = Throw (InvalidArgument (message_bwd RankInput))
  /\ bwd input_8_2_4_64 cos_8_1_32 sin_8_1_1_32 false
     = Throw (InvalidArgument (message_bwd RankCos))
  /\ (bwd input_8_2_4 cos_8_1_1_32 sin_8_1_1_32 false
      = bwd input_8_2_4_64 cos_8_1_32 sin_8_1_1_32 false
      <-> is_rank_check RankInput = true /\ is_rank_check RankCos = true).
Proof.
  apply (bwd_messages_distinct_unless_rank
           input_8_2_4 cos_8_1_1_32 sin_8_1_1_32 false
           input_8_2_4_64 cos_8_1_32 sin_8_1_1_32 false
           RankInput RankCos).
  - reflexivity.
  - reflexivity.
  - discriminate.
Defined.

(** ** The two entry points side by side *)

Lemma message_bwd_same_iff (k : Check) :
  message k = message_bwd k <-> names_first_argument k = false.
Proof. destruct k; cbn; split; intros H; first [reflexivity | discriminate]. Qed.

(** X5. On one and the same argument tuple [fwd] and [bwd] end alike
    exactly when validation fails at a check whose message does not name
    the first argument (a rank check, a broadcast check, the last-dim check
    or the dtype check): there the error does not tell the entry point.
    At the two sequence-length checks and at the width check the messages
    differ, and when validation passes the two call different kernels. *)
Theorem fwd_bwd_same_outcome_iff
  (x cos sin : Tensor) (t t' : bool) :
  fwd x cos sin t = bwd x cos sin t'
  <-> exists k, first_failing x cos sin = Some k
                /\ names_first_argument k = false.
Proof.
  rewrite fwd_first_failing, bwd_first_failing.
  destruct (first_failing x cos sin) as [k |].
  - split.
    + intros [= H]. apply message_bwd_same_iff in H. eauto.
    + intros (k' & [= <-] & H). apply message_bwd_same_iff in H.
      now rewrite H.
  - split; [intros [= H] | intros (k & H & _)]; discriminate.
Qed.

Lemma rank_4_sizes (t : Tensor) :
  rank t = 4%nat -> exists a b c d, sizes t = [a; b; c; d].
Proof.
  unfold rank. intros H.
  destruct (sizes t) as [| a [| b [| c [| d [| e l]]]]]; try discriminate.
  eauto.
Qed.

Lemma invariants_iff_shapes (x cos sin : Tensor) :
  section3_invariants x cos sin <-> accepted_shapes x cos sin.
Proof.
  unfold section3_invariants, invariants_but_width, inv_rank, inv_seq_len,
    inv_broadcast, inv_embed_width, inv_width_order, inv_dtype,
    accepted_shapes.
  split.
  - intros (((Rx & Rc & Rs) & (S0 & S1) & ((C1 & C2) & (N1 & N2)) & L & D)
            & W).
    destruct (rank_4_sizes x Rx) as (x0 & x1 & x2 & x3 & Ex).
    destruct (rank_4_sizes cos Rc) as (c0 & c1 & c2 & c3 & Ec).
    destruct (rank_4_sizes sin Rs) as (s0 & s1 & s2 & s3 & Es).
    unfold sizeN in *. rewrite Ex, Ec, Es in *. cbn in *.
    exists x0, x1, x2, x3, c3.
    repeat split; first [congruence | lia].
  - intros (n & b & h & d & w & Ex & Ec & Es & W & D).
    unfold rank, sizeN. rewrite Ex, Ec, Es. cbn.
    repeat split; try assumption; lia.
Qed.

(** X6. What a kernel can rely on.  [fwd] reaches the forward kernel, and
    [bwd] the backward kernel, exactly when the first argument has four
    dimensions [n; b; h; d], cos and sin have one and the same shape
    [n; 1; 1; w] with [w <= d], and cos and sin have one dtype.  No size is
    required to be positive: empty tensors are let through. *)
Theorem kernel_reached_iff_shapes
  (x cos sin : Tensor) (t : bool) :
  (fwd x cos sin t = Call (FwdCuda x cos sin t) Ret
   <-> accepted_shapes x cos sin)
  /\ (bwd x cos sin t = Call (BwdCuda x cos sin t) Ret
      <-> accepted_shapes x cos sin).
Proof.
  rewrite <- invariants_iff_shapes, <- passes_iff_invariants.
  rewrite fwd_first_failing, bwd_first_failing.
  destruct (first_failing x cos sin) as [k |].
  - split; split; discriminate.
  - split; split; reflexivity.
Qed.

(** A sequence of length 0 with an embedding of width 0 passes. *)
Example fwd_empty_tensors :
  fwd (mkTensor [0; 2; 4; 0] Half []) (mkTensor [0; 1; 1; 0] Float [])
      (mkTensor [0; 1; 1; 0] Float []) false
  = Call (FwdCuda (mkTensor [0; 2; 4; 0] Half [])
            (mkTensor [0; 1; 1; 0] Float [])
            (mkTensor [0; 1; 1; 0] Float []) false) Ret.
Proof. reflexivity. Qed.

Lemma invariants_swap (x cos sin : Tensor) :
  section3_invariants x cos sin -> section3_invariants x sin cos.
Proof.
  unfold section3_invariants, invariants_but_width, inv_rank, inv_seq_len,
    inv_broadcast, inv_embed_width, inv_width_order, inv_dtype.
  intros (((Rx & Rc & Rs) & (S0 & S1) & ((C1 & C2) & (N1 & N2)) & L & D)
          & W).
  repeat split; try assumption; try congruence; lia.
Qed.

(** X7. Acceptance is symmetric in cos and sin: a call passes validation
    exactly when the call with the two tables exchanged does, in [fwd] and
    in [bwd] (the kernel then receives them exchanged, and a failing call
    may report another message). *)
Theorem validation_symmetric_in_cos_sin
  (x cos sin : Tensor) (t : bool) :
  (validation (fwd x cos sin t) = None
   <-> validation (fwd x sin cos t) = None)
  /\ (validation (bwd x cos sin t) = None
      <-> validation (bwd x sin cos t) = None).
Proof.
  rewrite !validation_fwd, !validation_bwd.
  assert (S : first_failing x cos sin = None
              <-> first_failing x sin cos = None).
  { rewrite !passes_iff_invariants. split; apply invariants_swap. }
  destruct (first_failing x cos sin), (first_failing x sin cos); cbn;
    split; split; intros H; try reflexivity; try discriminate;
    first [ now apply S in H | (assert (D : @None Check = None) by reflexivity;
                                 apply S in D; discriminate) ].
Qed.

(** Exchanged tables can change the message of a failing call: cos of rank
    3 is found by the second check, or by the third. *)
Example exchanged_tables_other_check :
  first_failing input_8_2_4_64 cos_8_1_32 sin_8_1_1_32 = Some RankCos
  /\ first_failing input_8_2_4_64 sin_8_1_1_32 cos_8_1_32 = Some RankSin.
Proof. split; reflexivity. Qed.

(** X8. Forward and backward compose: when [fwd] accepts input, cos and
    sin, then [bwd] accepts, with the same cos and sin, any gradient whose
    size vector is that of the input, whatever its dtype, its contents and
    the flag; and conversely. *)
Theorem bwd_accepts_gradients_of_accepted_input
  (input output_grads cos sin : Tensor) (t t' : bool) :
  sizes output_grads = sizes input ->
  (fwd input cos sin t = Call (FwdCuda input cos sin t) Ret
   <-> bwd output_grads cos sin t'
       = Call (BwdCuda output_grads cos sin t') Ret).
Proof.
  intros S. rewrite fwd_first_failing, bwd_first_failing.
  rewrite (first_failing_agree output_grads cos sin input cos sin)
    by (intros k; now apply holds_metadata).
  destruct (first_failing input cos sin); split; intros H;
    first [reflexivity | discriminate].
Qed.

(** Scenario 1 and a single-precision gradient of the shape of its input. *)
Lemma bwd_accepts_gradients_of_scenario_1 :
  bwd (mkTensor [8; 2; 4; 64] Float [7]) cos_8_1_1_32 sin_8_1_1_32 false
  = Call (BwdCuda (mkTensor [8; 2; 4; 64] Float [7])
            cos_8_1_1_32 sin_8_1_1_32 false) Ret.
Proof.
  apply (bwd_accepts_gradients_of_accepted_input
           input_8_2_4_64 (mkTensor [8; 2; 4; 64] Float [7])
           cos_8_1_1_32 sin_8_1_1_32 true false).
  - reflexivity.
  - reflexivity.
Defined.

Lemma holds_first_argument (k : Check) (g g' cos sin cos' sin' : Tensor) :
  length (sizes g) = length (sizes g') ->
  (forall i, i <> 1%nat -> i <> 2%nat -> sizes g !! i = sizes g' !! i) ->
  sizes cos = sizes cos' -> scalar_type cos = scalar_type cos' ->
  sizes sin = sizes sin' -> scalar_type sin = scalar_type sin' ->
  holds k g cos sin = holds k g' cos' sin'.
Proof.
  intros L E Sc Dc Ss Ds.
  rewrite (holds_batch_heads k g g' cos sin L E).
  now apply holds_metadata.
Qed.

(** X9. What [bwd] looks at.  The outcome of its validation is decided by
    the rank and the sizes of dimensions 0 and 3 of output_grads and by the
    size vectors and dtypes of cos and sin: two calls that agree in these
    have the same outcome, whatever the batch and heads sizes, the dtype of
    output_grads, the contents of the tensors and the flags.  The flag is
    used in the kernel call only. *)
Theorem bwd_validation_depends_only_on
  (g cos sin : Tensor) (t : bool) (g' cos' sin' : Tensor) (t' : bool) :
  length (sizes g) = length (sizes g') ->
  (forall i, i <> 1%nat -> i <> 2%nat -> sizes g !! i = sizes g' !! i) ->
  sizes cos = sizes cos' -> scalar_type cos = scalar_type cos' ->
  sizes sin = sizes sin' -> scalar_type sin = scalar_type sin' ->
  validation (bwd g cos sin t) = validation (bwd g' cos' sin' t')
  /\ bwd g cos sin t
     = match validation (bwd g cos sin t') with
       | Some e => Throw e
       | None => Call (BwdCuda g cos sin t) Ret
       end.
Proof.
  intros L E Sc Dc Ss Ds. rewrite !validation_bwd, bwd_first_failing.
  rewrite (first_failing_agree g cos sin g' cos' sin')
    by (intros k; now apply holds_first_argument).
  split; [reflexivity |].
  now destruct (first_failing g' cos' sin').
Qed.

(** Gradients with another batch size, number of heads, dtype and
    contents, tables with other contents, the other flag. *)
Lemma bwd_validation_depends_only_on_batch_heads :
  validation (bwd input_8_2_4_64 cos_8_1_1_32 sin_8_1_1_32 true)
  = validation
      (bwd (mkTensor [8; 16; 32; 64] Double [1; 2])
           (mkTensor [8; 1; 1; 32] Float [3])
           (mkTensor [8; 1; 1; 32] Float [4]) false).
Proof.
  apply (bwd_validation_depends_only_on
           input_8_2_4_64 cos_8_1_1_32 sin_8_1_1_32 true
           (mkTensor [8; 16; 32; 64] Double [1; 2])
           (mkTensor [8; 1; 1; 32] Float [3])
           (mkTensor [8; 1; 1; 32] Float [4]) false);
    try reflexivity.
  intros [| [| [| [| i]]]] N1 N2; first [reflexivity | contradiction].
Defined.

(** ** The extension module *)

(** A run of [fwd] or of [bwd] makes no kernel invocation when an
    invariant is violated, and the one invocation of its own kernel on the
    arguments as received otherwise. *)
Lemma invocations_fwd {World : Type}
  (kernel : KernelCall -> World -> (Error + Tensor) * World) (w : World)
  (x cos sin : Tensor) (t : bool) :
  invocations (run kernel (fwd x cos sin t) w)
  = match first_failing x cos sin with
    | Some _ => []
    | None => [FwdCuda x cos sin t]
    end.
Proof.
  rewrite fwd_first_failing.
  destruct (first_failing x cos sin); [reflexivity |].
  now rewrite run_call_ret.
Qed.

Lemma invocations_bwd {World : Type}
  (kernel : KernelCall -> World -> (Error + Tensor) * World) (w : World)
  (g cos sin : Tensor) (t : bool) :
  invocations (run kernel (bwd g cos sin t) w)
  = match first_failing g cos sin with
    | Some _ => []
    | None => [BwdCuda g cos sin t]
    end.
Proof.
  rewrite bwd_first_failing.
  destruct (first_failing g cos sin); [reflexivity |].
  now rewrite run_call_ret.
Qed.

(** X10. Every function the module exports validates before it
    dispatches.  The module binds two distinct names; whichever binding is
    called, on whatever arguments and against whatever kernel, the run
    makes no kernel invocation when the arguments violate an invariant of
    section 3, and otherwise exactly one, on the arguments as received:
    of the forward kernel for "forward" and of the backward kernel for
    "backward". *)
Theorem exported_functions_validate_before_dispatch :
  NoDup (map py_name pybind11_module)
  /\ Forall
       (fun b =>
          forall (x cos sin : Tensor) (t : bool) (World : Type)
            (kernel : KernelCall -> World -> (Error + Tensor) * World)
            (w : World),
            (~ section3_invariants x cos sin
             /\ invocations (run kernel (py_impl b x cos sin t) w) = [])
            \/ (section3_invariants x cos sin
                /\ invocations (run kernel (py_impl b x cos sin t) w)
                   = [if String.eqb (py_name b) "forward"
                      then FwdCuda x cos sin t
                      else BwdCuda x cos sin t]))
       pybind11_module.
Proof.
  split.
  - cbn. apply NoDup_cons_2; [| apply NoDup_singleton].
    intros H. apply list_elem_of_singleton in H. discriminate.
  - unfold pybind11_module.
    apply List.Forall_cons;
      [| apply List.Forall_cons; [| apply List.Forall_nil]];
      intros x cos sin t World kernel w; cbn [py_impl py_name];
      rewrite ?invocations_fwd, ?invocations_bwd;
      rewrite <- passes_iff_invariants;
      destruct (first_failing x cos sin);
      first [ left; split; [discriminate | reflexivity]
            | right; split; reflexivity ].
Qed.

(** ** Reading an error message back *)

Lemma validation_order_NoDup : NoDup validation_order.
Proof. apply (bool_decide_unpack _). vm_compute. exact I. Qed.

(** In a list without repetition, what [find] returns is preceded only by
    elements that fail the test. *)
Lemma find_Some_before {A : Type} (f : A -> bool) (pre post : list A)
  (a : A) :
  NoDup (pre ++ a :: post)%list ->
  List.find f (pre ++ a :: post) = Some a ->
  forall b, In b pre -> f b = false.
Proof.
  induction pre as [| c pre IH]; cbn; intros ND F b Hb; [contradiction |].
  inversion ND as [| c' l' Hc NDl]; subst.
  destruct (f c) eqn:Fc.
  - injection F as ->. exfalso. apply Hc.
    apply list_elem_of_In, in_or_app. right. now left.
  - destruct Hb as [<- | Hb]; [exact Fc |]. now apply IH.
Qed.

Lemma first_failing_before (x cos sin : Tensor) (pre post : list Check)
  (k : Check) :
  validation_order = (pre ++ k :: post)%list ->
  first_failing x cos sin = Some k ->
  holds k x cos sin = false
  /\ forall j, In j pre -> holds j x cos sin = true.
Proof.
  intros O F. split.
  - apply List.find_some in F as [_ F]. now destruct (holds k x cos sin).
  - intros j Hj. unfold first_failing in F. rewrite O in F.
    pose proof validation_order_NoDup as ND. rewrite O in ND.
    pose proof (find_Some_before _ pre post k ND F j Hj) as H.
    cbn beta in H. now destruct (holds j x cos sin).
Qed.

Lemma first_failing_past_ranks (x cos sin : Tensor) (k : Check) :
  first_failing x cos sin = Some k -> is_rank_check k = false ->
  inv_rank x cos sin.
Proof.
  unfold first_failing, validation_order, inv_rank.
  cbn [List.find holds]. intros F K.
  destruct (Nat.eqb_spec (rank x) 4);
    [| injection F as <-; discriminate].
  destruct (Nat.eqb_spec (rank cos) 4);
    [| injection F as <-; discriminate].
  destruct (Nat.eqb_spec (rank sin) 4);
    [| injection F as <-; discriminate].
  tauto.
Qed.

(** X11. An error message can be read back.  When [fwd], or [bwd], fails
    with the message of a check other than a rank check, that check does
    not hold on the arguments and every check written before it does: in
    particular the three ranks are 4. *)
Theorem message_identifies_failing_check
  (x cos sin : Tensor) (t : bool) (pre post : list Check) (k : Check) :
  validation_order = (pre ++ k :: post)%list ->
  is_rank_check k = false ->
  fwd x cos sin t = Throw (InvalidArgument (message k))
  \/ bwd x cos sin t = Throw (InvalidArgument (message_bwd k)) ->
  holds k x cos sin = false
  /\ (forall j, In j pre -> holds j x cos sin = true)
  /\ inv_rank x cos sin.
Proof.
  intros O K H.
  assert (F : first_failing x cos sin = Some k).
  { rewrite fwd_first_failing, bwd_first_failing in H.
    destruct (first_failing x cos sin) as [k' |];
      [| destruct H; discriminate].
    destruct (decide (k' = k)) as [-> | N]; [reflexivity |].
    exfalso. destruct H as [[= H] | [= H]].
    - apply (message_eq_iff k' k N) in H as [_ H]. congruence.
    - apply (message_bwd_eq_iff k' k N) in H as [_ H]. congruence. }
  destruct (first_failing_before x cos sin pre post k O F) as [Hk Hpre].
  split; [exact Hk |]. split; [exact Hpre |].
  exact (first_failing_past_ranks x cos sin k F K).
Qed.

(** Scenario 4: the dtype message tells that all the shape checks held. *)
Lemma message_identifies_failing_check_scenario_4 :
  holds DtypeEq input_8_2_4_64 cos_8_1_1_32 sin_half_8_1_1_32 = false
  /\ (forall j,
        In j [RankInput; RankCos; RankSin; SeqLenCos; SeqLenSin;
              BroadcastCos; BroadcastSin; LastDim; WidthOrder] ->
        holds j input_8_2_4_64 cos_8_1_1_32 sin_half_8_1_1_32 = true)
  /\ inv_rank input_8_2_4_64 cos_8_1_1_32 sin_half_8_1_1_32.
Proof.
  apply (message_identifies_failing_check
           input_8_2_4_64 cos_8_1_1_32 sin_half_8_1_1_32 true
           [RankInput; RankCos; RankSin; SeqLenCos; SeqLenSin;
            BroadcastCos; BroadcastSin; LastDim; WidthOrder] [] DtypeEq).
  - reflexivity.
  - reflexivity.
  - left. reflexivity.
Defined.

Lemma rank_check_fails (x cos sin : Tensor) (k : Check) :
  is_rank_check k = true -> holds k x cos sin = false ->
  ~ inv_rank x cos sin.
Proof.
  unfold inv_rank. intros K H (Rx & Rc & Rs).
  destruct k; try discriminate; cbn [holds] in H;
    rewrite ?Rx, ?Rc, ?Rs in H; discriminate.
Qed.

(** X12. The message "expected 4D tensor" means a wrong rank and nothing
    else: [fwd], and likewise [bwd], fails with it exactly when one of the
    three tensors does not have rank 4. *)
Theorem rank_message_iff_rank_violation
  (x cos sin : Tensor) (t : bool) :
  (fwd x cos sin t = Throw (InvalidArgument "expected 4D tensor")
   <-> ~ inv_rank x cos sin)
  /\ (bwd x cos sin t = Throw (InvalidArgument "expected 4D tensor")
      <-> ~ inv_rank x cos sin).
Proof.
  rewrite fwd_first_failing, bwd_first_failing.
  split; split.
  1, 3: destruct (first_failing x cos sin) as [k |] eqn:F;
    [| discriminate]; intros [= H];
    apply (rank_check_fails x cos sin k);
    [ destruct k; first [reflexivity | discriminate]
    | apply List.find_some in F as [_ F];
      now destruct (holds k x cos sin) ].
  all: intros V; destruct (first_failing_rank x cos sin V) as (k & -> & K);
    destruct k; first [reflexivity | discriminate].
Qed.
